(** * website/server.py: the static page and the script-execution gateway

    A shallow embedding of the two Flask view functions of
    [website/server.py], [index] and [run_script], and the properties of
    the HTTP interface they implement.

    Python values are an inductive type, the dict built from the JSON body
    is a finite map, and the interpreter's effects (raising, spawning a
    child process, blocking on it) are threaded through a small
    state-and-exception monad over the log of [subprocess.run] calls. *)

From Stdlib Require Import ZArith Floats.SpecFloat.
From stdpp Require Import gmap strings list fin_maps.

Local Open Scope Z_scope.
Local Open Scope string_scope.

(** ** Python values *)

(** What [json.loads] can produce: [None], [bool], [int], [float], [str],
    [list] and [dict] with [str] keys. *)
#[warnings="-register-all"] Inductive pyval : Type :=
  | PyNone
  | PyBool (b : bool)
  | PyInt (n : Z)
  | PyFloat (f : spec_float)
  | PyStr (s : string)
  | PyList (l : list pyval)
  | PyDict (d : gmap string pyval).

(** [str.__eq__]: a [str] is equal to another [str] with the same code
    points and to nothing else; every other JSON type answers
    [NotImplemented] against a [str], so [==] is [False]. *)
Definition py_eq_str (v : pyval) (s : string) : bool :=
  match v with
  | PyStr t => bool_decide (t = s)
  | _ => false
  end.

(** [v in l] for a list [l] of [str]: some element compares equal. *)
Fixpoint py_in (v : pyval) (l : list string) : bool :=
  match l with
  | [] => false
  | s :: l' => py_eq_str v s || py_in v l'
  end.

(** [d.get(key)]: the value stored under [key], [None] when there is none. *)
Definition dict_get (d : gmap string pyval) (key : string) : pyval :=
  default PyNone (d !! key).

(** ** Exceptions, child processes and the world *)

Inductive exn : Type :=
  | HTTPException (code : Z)
  | AttributeError
  | CalledProcessError (returncode : Z) (cmd : list pyval) (output stderr : string)
  | OSError (errno : Z)
  | UnicodeDecodeError.

Definition BadRequest : exn := HTTPException 400.
Definition NotFound : exn := HTTPException 404.

(** One call of [subprocess.run]: the argument vector and the keyword
    arguments the source passes. *)
Record run_call : Type := RunCall {
  args : list pyval;
  capture_output : bool;
  text : bool;
  check : bool
}.

(** What becomes of the child that [subprocess.run] starts: it exits with
    a return code, having written [out] and [err]; it never exits (the
    source sets no timeout); the interpreter cannot be executed, which
    [subprocess.run] raises as [OSError]; or it exits and what it wrote is
    not text, which the decoding of text mode raises as
    [UnicodeDecodeError]. *)
Inductive child : Type :=
  | Exited (returncode : Z) (out err : string)
  | NeverExits
  | CannotExecute (errno : Z)
  | NotText.

(** The operating system decides the fate of a child from the calls made
    so far and the call at hand: the same script may behave differently
    from one run to the next. *)
Definition os_model : Type := list run_call → run_call → child.

Record world : Type := World {
  os : os_model;
  files : gmap string (list Byte.byte);
  spawned : list run_call
}.

(** ** The interpreter monad *)

Inductive outcome (A : Type) : Type :=
  | Return (a : A)
  | Raise (e : exn)
  | Blocked.
Arguments Return {A} a.
Arguments Raise {A} e.
Arguments Blocked {A}.

Definition M (A : Type) : Type := world → outcome A * world.

#[global] Instance M_ret : MRet M := λ A a w, (Return a, w).

#[global] Instance M_bind : MBind M := λ A B f m w,
  match m w with
  | (Return a, w') => f a w'
  | (Raise e, w') => (Raise e, w')
  | (Blocked, w') => (Blocked, w')
  end.

Definition raise {A : Type} (e : exn) : M A := λ w, (Raise e, w).

(** [try: body / except ...: handler]: [handler e] is [None] when no
    [except] clause matches [e], and the exception goes on. *)
Definition try_except {A : Type} (body : M A) (handler : exn → option (M A)) : M A :=
  λ w,
    match body w with
    | (Raise e, w') =>
        match handler e with
        | Some h => h w'
        | None => (Raise e, w')
        end
    | r => r
    end.

(** ** The library calls of the source *)

(** [subprocess.run(args, capture_output=, text=, check=)]: starts the
    child, waits for it and hands back its return code and captured
    output; with [check=True] a non-zero return code is raised as
    [CalledProcessError], which carries the same captured output. The
    streams are modelled as the source asks for them, captured and decoded
    to [str]. *)
Record CompletedProcess : Type := {
  cp_args : list pyval;
  returncode : Z;
  stdout : string;
  stderr : string
}.

Definition log_call (c : run_call) (w : world) : world :=
  {| os := os w; files := files w; spawned := spawned w ++ [c] |}.

Definition subprocess_run (c : run_call) : M CompletedProcess := λ w,
  match os w (spawned w) c with
  | Exited rc out err =>
      if check c && negb (rc =? 0)%Z
      then (Raise (CalledProcessError rc (args c) out err), log_call c w)
      else (Return {| cp_args := args c; returncode := rc;
                      stdout := out; stderr := err |}, log_call c w)
  | NeverExits => (Blocked, log_call c w)
  | CannotExecute errno => (Raise (OSError errno), log_call c w)
  | NotText => (Raise UnicodeDecodeError, log_call c w)
  end.

(** A response: the payload and the status code. [jsonify] makes the
    payload from a dict, with status 200; a view that returns the pair
    [(response, code)] sets the status to [code]. *)
Inductive payload : Type :=
  | JsonBody (v : pyval)
  | FileBody (data : list Byte.byte).

Record Response : Type := {
  body : payload;
  status : Z
}.

Definition jsonify (d : gmap string pyval) : Response :=
  {| body := JsonBody (PyDict d); status := 200 |}.

Definition with_status (r : Response) (code : Z) : Response :=
  {| body := body r; status := code |}.

(** [request.json]: the framework either raises while reading the body
    (no JSON content type, text that is not JSON) or hands over the parsed
    value. *)
Inductive Request : Type :=
  | JsonRaises (e : exn)
  | Json (v : pyval).

Definition request_json (request : Request) : M pyval :=
  match request with
  | JsonRaises e => raise e
  | Json v => mret v
  end.

(** [v.get(key)]: only a dict has the method [get]. *)
Definition py_get (v : pyval) (key : string) : M pyval :=
  match v with
  | PyDict d => mret (dict_get d key)
  | _ => raise AttributeError
  end.

(** Modelled from the spec: [flask.send_from_directory] is library code
    that the repository calls and does not contain. As the specification
    words it, the call returns the byte content of the named file under
    the given directory with status 200, and fails with NotFound (HTTP
    404) when the file is absent. *)
Definition send_from_directory (directory path : string) : M Response := λ w,
  match files w !! (directory +:+ "/" +:+ path) with
  | Some data => (Return {| body := FileBody data; status := 200 |}, w)
  | None => (Raise NotFound, w)
  end.

(** ** The views of [server.py] *)

(** [@app.route("/")] *)
Definition index : M Response :=
  send_from_directory "static" "index.html".

Definition erlaubte_skripte : list string := ["dein_script.py"].

(** [@app.route("/run", methods=["POST"])] *)
Definition run_script (request : Request) : M Response :=
  j ← request_json request;
  script ← py_get j "script";
  if negb (py_in script erlaubte_skripte) then
    mret (with_status (jsonify {["error" := PyStr "Script nicht erlaubt"]}) 403)
  else
    try_except
      (result ← subprocess_run {| args := [PyStr "python3"; script];
                                   capture_output := true;
                                   text := true;
                                   check := true |};
       mret (jsonify {["output" := PyStr (stdout result)]}))
      (λ e, match e with
            | CalledProcessError _ _ _ e_stderr =>
                Some (mret (with_status (jsonify {["error" := PyStr e_stderr]}) 400))
            | _ => None
            end).

(** ** Vocabulary of the statements *)

(** The one entry of the allow-list, and the call the handler makes for a
    script that passed the check. *)
Definition dein_script : pyval := PyStr "dein_script.py".

Definition python3_call (script : pyval) : run_call :=
  {| args := [PyStr "python3"; script];
     capture_output := true; text := true; check := true |}.

(** A POST to [/run] whose body parses to the JSON object [d]. *)
Definition post (d : gmap string pyval) : Request := Json (PyDict d).

Definition error_body (msg : string) : payload :=
  JsonBody (PyDict {["error" := PyStr msg]}).

Definition output_body (out : string) : payload :=
  JsonBody (PyDict {["output" := PyStr out]}).

(** The handler answered with status 403. *)
Definition rejected (r : outcome Response * world) : Prop :=
  ∃ b, r.1 = Return {| body := b; status := 403 |}.

(** ** Sample worlds and requests *)

Definition hello_os : os_model := λ _ _, Exited 0 "hello" "warning".
Definition boom_os : os_model := λ _ _, Exited 1 "partial output" "boom".
Definition hung_os : os_model := λ _ _, NeverExits.

Definition index_html : list Byte.byte := [Byte.x3c; Byte.x68; Byte.x31; Byte.x3e].

Definition boot (o : os_model) : world :=
  {| os := o; files := ∅; spawned := [] |}.

Definition boot_with_page (o : os_model) : world :=
  {| os := o; files := {["static/index.html" := index_html]}; spawned := [] |}.

Definition script_is (v : pyval) : gmap string pyval := {["script" := v]}.

(** The interpreter is not installed (errno 2, ENOENT); the child writes
    bytes that are not text; the script succeeds on its first run only. *)
Definition no_python_os : os_model := λ _ _, CannotExecute 2.
Definition binary_os : os_model := λ _ _, NotText.
Definition flaky_os : os_model := λ history _,
  match history with
  | [] => Exited 0 "first run" "quiet"
  | _ => Exited 3 "quiet" "second run failed"
  end.

(** ** Requests one after the other *)

(** Whether the handler gets as far as [subprocess.run]: the body is an
    object and its [script] value passes the check. *)
Definition accepts (request : Request) : bool :=
  match request with
  | Json (PyDict d) => py_in (dict_get d "script") erlaubte_skripte
  | _ => false
  end.

(** The world after [run_script] has handled the requests in turn, each
    one starting in the world the one before it left. *)
Definition serve_all (requests : list Request) (w : world) : world :=
  foldl (λ w' request, (run_script request w').2) w requests.

(** ** The allow-list check *)

Lemma py_eq_str_true (v : pyval) (s : string) :
  py_eq_str v s = true ↔ v = PyStr s.
Proof.
  destruct v; simpl; try (split; [discriminate | congruence]).
  rewrite bool_decide_eq_true. split; congruence.
Qed.

Lemma py_in_erlaubt (v : pyval) :
  py_in v erlaubte_skripte = true ↔ v = dein_script.
Proof.
  unfold erlaubte_skripte, dein_script. simpl.
  rewrite orb_false_r. apply py_eq_str_true.
Qed.

Lemma py_in_not_erlaubt (v : pyval) :
  py_in v erlaubte_skripte = false ↔ v ≠ dein_script.
Proof.
  rewrite <- py_in_erlaubt. destruct (py_in v erlaubte_skripte); split; congruence.
Qed.

(** ** The two paths of [run_script] *)

Lemma run_script_reject (d : gmap string pyval) (w : world) :
  py_in (dict_get d "script") erlaubte_skripte = false →
  run_script (post d) w
  = (Return {| body := error_body "Script nicht erlaubt"; status := 403 |}, w).
Proof.
  intros Hno. unfold run_script, post, request_json, py_get.
  unfold mbind, M_bind, mret, M_ret. cbv beta iota.
  rewrite Hno. reflexivity.
Qed.

Lemma run_script_accept (d : gmap string pyval) (w : world) :
  py_in (dict_get d "script") erlaubte_skripte = true →
  run_script (post d) w
  = (match os w (spawned w) (python3_call dein_script) with
     | Exited rc out err =>
         if (rc =? 0)%Z
         then Return {| body := output_body out; status := 200 |}
         else Return {| body := error_body err; status := 400 |}
     | NeverExits => Blocked
     | CannotExecute errno => Raise (OSError errno)
     | NotText => Raise UnicodeDecodeError
     end, log_call (python3_call dein_script) w).
Proof.
  intros Hyes. pose proof Hyes as Heq. apply py_in_erlaubt in Heq.
  unfold run_script, post, request_json, py_get.
  unfold mbind, M_bind, mret, M_ret. cbv beta iota.
  rewrite Hyes, Heq. cbv beta iota delta [negb].
  unfold try_except, subprocess_run. fold (python3_call dein_script).
  destruct (os w (spawned w) (python3_call dein_script)) as [rc out err| |errno|];
    simpl; try reflexivity.
  destruct (rc =? 0)%Z; reflexivity.
Qed.

Lemma py_in_spec (v : pyval) (l : list string) :
  py_in v l = true ↔ v ∈ PyStr <$> l.
Proof.
  induction l as [|s l IH]; simpl.
  - split; [discriminate | intros H; inversion H].
  - rewrite orb_true_iff, py_eq_str_true, IH, elem_of_cons. reflexivity.
Qed.

Lemma error_body_inj (m1 m2 : string) :
  error_body m1 = error_body m2 → m1 = m2.
Proof.
  unfold error_body. intros H.
  apply (f_equal (λ p, match p with
                       | JsonBody (PyDict m) => m !! "error"
                       | _ => None
                       end)) in H.
  rewrite !lookup_singleton_eq in H. congruence.
Qed.

(** A rejection leaves no trace, an accepted request logs its call. *)
Lemma run_script_rejected_iff (d : gmap string pyval) (w : world) :
  rejected (run_script (post d) w) ↔ dict_get d "script" ≠ dein_script.
Proof.
  rewrite <- py_in_not_erlaubt.
  destruct (py_in (dict_get d "script") erlaubte_skripte) eqn:Hin.
  - rewrite (run_script_accept d w Hin). unfold rejected. simpl. split; [|discriminate].
    intros [b Hb]. exfalso.
    destruct (os w (spawned w) (python3_call dein_script)) as [rc out err| |errno|];
      try discriminate.
    destruct (rc =? 0)%Z; discriminate.
  - rewrite (run_script_reject d w Hin). split; [reflexivity|].
    intros _. eexists. reflexivity.
Qed.

Lemma run_script_exit_zero
    (d : gmap string pyval) (w : world) (out err : string) :
  py_in (dict_get d "script") erlaubte_skripte = true →
  os w (spawned w) (python3_call (dict_get d "script")) = Exited 0 out err →
  run_script (post d) w
  = (Return {| body := output_body out; status := 200 |},
     log_call (python3_call (dict_get d "script")) w).
Proof.
  intros Hyes Hexit. pose proof Hyes as Heq. apply py_in_erlaubt in Heq.
  rewrite Heq in Hexit. rewrite Heq, (run_script_accept d w Hyes), Hexit.
  reflexivity.
Qed.

Lemma run_script_exit_nonzero
    (d : gmap string pyval) (w : world) (rc : Z) (out err : string) :
  py_in (dict_get d "script") erlaubte_skripte = true →
  os w (spawned w) (python3_call (dict_get d "script")) = Exited rc out err →
  rc ≠ 0 →
  run_script (post d) w
  = (Return {| body := error_body err; status := 400 |},
     log_call (python3_call (dict_get d "script")) w).
Proof.
  intros Hyes Hexit Hrc. pose proof Hyes as Heq. apply py_in_erlaubt in Heq.
  rewrite Heq in Hexit. rewrite Heq, (run_script_accept d w Hyes), Hexit.
  destruct (Z.eqb_spec rc 0) as [->|_]; [destruct Hrc|]; reflexivity.
Qed.

(** ** The claims *)

(** Claim C1. A POST to [/run] whose [script] value fails the allow-list
    check is answered with status 403 and a JSON error object, and the
    world, the log of spawned processes included, is left as it was. The
    check fails when the field is omitted, when it is [null], when it is
    the empty string, when it is any other string than the allow-listed
    one, and when it is not a string at all. *)
Theorem run_script_forbidden :
  (∀ (d : gmap string pyval) (w : world),
     py_in (dict_get d "script") erlaubte_skripte = false →
     run_script (post d) w
     = (Return {| body := error_body "Script nicht erlaubt"; status := 403 |}, w))
  ∧ (∀ d : gmap string pyval,
       d !! "script" = None
       ∨ d !! "script" = Some PyNone
       ∨ d !! "script" = Some (PyStr EmptyString)
       ∨ (∃ s, d !! "script" = Some (PyStr s) ∧ s ≠ "dein_script.py")
       ∨ (∃ v, d !! "script" = Some v ∧ ∀ s, v ≠ PyStr s) →
       py_in (dict_get d "script") erlaubte_skripte = false).
Proof.
  split; [exact run_script_reject|].
  intros d H. apply py_in_not_erlaubt. unfold dict_get, dein_script.
  destruct H as [-> | [-> | [-> | [(s & -> & Hs) | (v & -> & Hv)]]]]; simpl;
    try discriminate.
  - congruence.
  - apply Hv.
Qed.

Lemma run_script_forbidden_witness :
  run_script (post (script_is (PyStr "other.py"))) (boot hello_os)
  = (Return {| body := error_body "Script nicht erlaubt"; status := 403 |},
     boot hello_os)
  ∧ py_in (dict_get (script_is (PyInt 7)) "script") erlaubte_skripte = false
  ∧ py_in (dict_get (∅ : gmap string pyval) "script") erlaubte_skripte = false.
Proof.
  split; [|split].
  - apply (proj1 run_script_forbidden). vm_compute. reflexivity.
  - apply (proj2 run_script_forbidden). do 4 right. exists (PyInt 7).
    split; [vm_compute; reflexivity | discriminate].
  - apply (proj2 run_script_forbidden). left. reflexivity.
Defined.

(** Claim C4, as the specification states it, fails: the message of a
    rejection is not "Script not allowed". *)
Lemma not_allowed_message_counterexample :
  ∃ resp : Response,
    run_script (post (script_is (PyStr "other.py"))) (boot hello_os)
    = (Return resp, boot hello_os)
    ∧ status resp = 403
    ∧ body resp ≠ error_body "Script not allowed".
Proof.
  eexists. split; [|split].
  - apply run_script_reject. vm_compute. reflexivity.
  - reflexivity.
  - simpl. intros H%error_body_inj. discriminate.
Qed.

(** Claim C4, amended. Whenever [/run] rejects a request, the JSON error
    body is the fixed message [{"error": "Script nicht erlaubt"}], the
    same for every rejected input. *)
Theorem rejection_message_fixed (d : gmap string pyval) (w : world) :
  py_in (dict_get d "script") erlaubte_skripte = false →
  (∃ resp : Response,
     (run_script (post d) w).1 = Return resp
     ∧ body resp = error_body "Script nicht erlaubt")
  ∧ ∀ (d' : gmap string pyval) (w' : world),
      py_in (dict_get d' "script") erlaubte_skripte = false →
      (run_script (post d') w').1 = (run_script (post d) w).1.
Proof.
  intros Hno. rewrite (run_script_reject d w Hno). split.
  - eexists. split; reflexivity.
  - intros d' w' Hno'. rewrite (run_script_reject d' w' Hno'). reflexivity.
Qed.

Lemma rejection_message_fixed_witness :
  ∃ resp : Response,
    (run_script (post (script_is PyNone)) (boot boom_os)).1 = Return resp
    ∧ body resp = error_body "Script nicht erlaubt".
Proof.
  apply (rejection_message_fixed (script_is PyNone) (boot boom_os)).
  vm_compute. reflexivity.
Defined.

(** Claim C5. The allow-list is fixed and has exactly one entry; the
    check succeeds for the [str] that is literally that entry and for no
    other value, so a name in another case or with a path prefix fails;
    the handler rejects exactly the requests whose [script] value differs
    from the entry and spawns exactly for those that carry it. *)
Theorem allow_list_exact :
  erlaubte_skripte = ["dein_script.py"]
  ∧ (∀ v : pyval,
       py_in v erlaubte_skripte = true ↔ v = PyStr "dein_script.py")
  ∧ (∀ v : pyval, v ∈ PyStr <$> erlaubte_skripte ↔ v = PyStr "dein_script.py")
  ∧ py_in (PyStr "Dein_Script.py") erlaubte_skripte = false
  ∧ py_in (PyStr "./dein_script.py") erlaubte_skripte = false
  ∧ py_in (PyStr "static/../dein_script.py") erlaubte_skripte = false
  ∧ (∀ (d : gmap string pyval) (w : world),
       rejected (run_script (post d) w)
       ↔ dict_get d "script" ≠ PyStr "dein_script.py")
  ∧ (∀ (d : gmap string pyval) (w : world),
       spawned (run_script (post d) w).2
       = (spawned w ++ [python3_call (PyStr "dein_script.py")])%list
       ↔ dict_get d "script" = PyStr "dein_script.py").
Proof.
  repeat split; try reflexivity; try discriminate.
  - apply py_in_erlaubt.
  - apply py_in_erlaubt.
  - rewrite <- py_in_spec. apply py_in_erlaubt.
  - rewrite <- py_in_spec. apply py_in_erlaubt.
  - apply run_script_rejected_iff.
  - apply run_script_rejected_iff.
  - intros Hlog. apply py_in_erlaubt.
    destruct (py_in (dict_get d "script") erlaubte_skripte) eqn:Hin; [reflexivity|].
    rewrite (run_script_reject d w Hin) in Hlog. simpl in Hlog.
    apply (f_equal length) in Hlog. rewrite length_app in Hlog. simpl in Hlog. lia.
  - intros Heq. apply py_in_erlaubt in Heq.
    rewrite (run_script_accept d w Heq). reflexivity.
Qed.

(** Claim C6. Whether [/run] rejects depends on the [script] value alone:
    two requests that carry the same [script] value, whatever else their
    bodies hold and in whatever worlds they run, are both rejected or both
    accepted; when rejected they get the same response and each world is
    left exactly as it was. *)
Theorem validation_deterministic
    (d1 d2 : gmap string pyval) (w1 w2 : world) :
  dict_get d1 "script" = dict_get d2 "script" →
  (rejected (run_script (post d1) w1) ↔ rejected (run_script (post d2) w2))
  ∧ (rejected (run_script (post d1) w1) →
     (run_script (post d1) w1).1 = (run_script (post d2) w2).1
     ∧ (run_script (post d1) w1).2 = w1
     ∧ (run_script (post d2) w2).2 = w2).
Proof.
  intros Hsame. split.
  - rewrite !run_script_rejected_iff, Hsame. reflexivity.
  - intros Hrej. apply run_script_rejected_iff, py_in_not_erlaubt in Hrej.
    pose proof Hrej as Hrej2. rewrite Hsame in Hrej2.
    rewrite (run_script_reject d1 w1 Hrej), (run_script_reject d2 w2 Hrej2).
    repeat split.
Qed.

Lemma validation_deterministic_witness :
  (rejected (run_script (post (script_is (PyStr "other.py"))) (boot hello_os))
   ↔ rejected (run_script (post (<["verbose" := PyBool true]>
                                   (script_is (PyStr "other.py"))))
                          (boot_with_page boom_os)))
  ∧ (rejected (run_script (post (script_is (PyStr "other.py"))) (boot hello_os)) →
     (run_script (post (script_is (PyStr "other.py"))) (boot hello_os)).1
     = (run_script (post (<["verbose" := PyBool true]>
                            (script_is (PyStr "other.py"))))
                   (boot_with_page boom_os)).1
     ∧ (run_script (post (script_is (PyStr "other.py"))) (boot hello_os)).2
       = boot hello_os
     ∧ (run_script (post (<["verbose" := PyBool true]>
                            (script_is (PyStr "other.py"))))
                   (boot_with_page boom_os)).2
       = boot_with_page boom_os).
Proof.
  apply validation_deterministic. vm_compute. reflexivity.
Defined.

(** Claim C9. [run_script] has no handler around [request.json]: whatever
    the framework raises while reading a body that is absent or is not
    JSON leaves the view unchanged, for the framework to turn into its
    default error response, and nothing is spawned. The same holds when
    the framework hands over a value that is not an object: the call of
    [get] raises, and nothing is spawned. *)
Theorem run_script_json_error :
  (∀ (e : exn) (w : world), run_script (JsonRaises e) w = (Raise e, w))
  ∧ (∀ (v : pyval) (w : world),
       (∀ d, v ≠ PyDict d) → run_script (Json v) w = (Raise AttributeError, w)).
Proof.
  split.
  - reflexivity.
  - intros v w Hv. destruct v; try reflexivity. destruct (Hv d eq_refl).
Qed.

Lemma run_script_json_error_witness :
  run_script (JsonRaises BadRequest) (boot hello_os) = (Raise BadRequest, boot hello_os)
  ∧ run_script (Json PyNone) (boot hello_os) = (Raise AttributeError, boot hello_os).
Proof.
  split.
  - apply (proj1 run_script_json_error).
  - apply (proj2 run_script_json_error). discriminate.
Defined.

(** Claim C2. For an allowed [script] value whose child exits with status
    0, [/run] answers with status 200 and the JSON body [{"output": out}],
    [out] being what the child wrote to standard output; what it wrote to
    standard error has no influence on the response. *)
Theorem run_script_success
    (d : gmap string pyval) (w : world) (out err : string) :
  py_in (dict_get d "script") erlaubte_skripte = true →
  os w (spawned w) (python3_call (dict_get d "script")) = Exited 0 out err →
  run_script (post d) w
  = (Return {| body := output_body out; status := 200 |},
     log_call (python3_call (dict_get d "script")) w)
  ∧ ∀ (w' : world) (err' : string),
      os w' (spawned w') (python3_call (dict_get d "script")) = Exited 0 out err' →
      (run_script (post d) w').1 = (run_script (post d) w).1.
Proof.
  intros Hyes Hexit. rewrite (run_script_exit_zero d w out err Hyes Hexit).
  split; [reflexivity|].
  intros w' err' Hexit'. rewrite (run_script_exit_zero d w' out err' Hyes Hexit').
  reflexivity.
Qed.

Lemma run_script_success_witness :
  run_script (post (script_is (PyStr "dein_script.py"))) (boot hello_os)
  = (Return {| body := output_body "hello"; status := 200 |},
     log_call (python3_call (PyStr "dein_script.py")) (boot hello_os)).
Proof.
  apply (run_script_success (script_is (PyStr "dein_script.py")) (boot hello_os)
           "hello" "warning"); vm_compute; reflexivity.
Defined.

(** Claim C3. For an allowed [script] value whose child exits with a
    status other than 0, [/run] answers with status 400 and the JSON body
    [{"error": err}], [err] being what the child wrote to standard
    error. *)
Theorem run_script_failure
    (d : gmap string pyval) (w : world) (rc : Z) (out err : string) :
  py_in (dict_get d "script") erlaubte_skripte = true →
  os w (spawned w) (python3_call (dict_get d "script")) = Exited rc out err →
  rc ≠ 0 →
  run_script (post d) w
  = (Return {| body := error_body err; status := 400 |},
     log_call (python3_call (dict_get d "script")) w).
Proof.
  exact (run_script_exit_nonzero d w rc out err).
Qed.

Lemma run_script_failure_witness :
  run_script (post (script_is (PyStr "dein_script.py"))) (boot boom_os)
  = (Return {| body := error_body "boom"; status := 400 |},
     log_call (python3_call (PyStr "dein_script.py")) (boot boom_os)).
Proof.
  apply (run_script_failure (script_is (PyStr "dein_script.py")) (boot boom_os)
           1 "partial output" "boom");
    [vm_compute; reflexivity | vm_compute; reflexivity | lia].
Defined.

(** Claim C10. When the child of an allowed request exits with a status
    other than 0, the response has status 400 and its body is a JSON
    object whose only key is "error", bound to the text of standard
    error; what the child wrote to standard output has no influence on the
    response. *)
Theorem failure_discards_stdout
    (d : gmap string pyval) (w : world) (rc : Z) (out err : string) :
  py_in (dict_get d "script") erlaubte_skripte = true →
  os w (spawned w) (python3_call (dict_get d "script")) = Exited rc out err →
  rc ≠ 0 →
  (∃ m : gmap string pyval,
     (run_script (post d) w).1 = Return {| body := JsonBody (PyDict m); status := 400 |}
     ∧ dom m = {["error"]}
     ∧ m !! "error" = Some (PyStr err))
  ∧ ∀ (w' : world) (rc' : Z) (out' : string),
      os w' (spawned w') (python3_call (dict_get d "script")) = Exited rc' out' err →
      rc' ≠ 0 →
      (run_script (post d) w').1 = (run_script (post d) w).1.
Proof.
  intros Hyes Hexit Hrc.
  rewrite (run_script_exit_nonzero d w rc out err Hyes Hexit Hrc). split.
  - exists {["error" := PyStr err]}. split; [reflexivity|]. split.
    + apply dom_singleton_L.
    + apply lookup_singleton_eq.
  - intros w' rc' out' Hexit' Hrc'.
    rewrite (run_script_exit_nonzero d w' rc' out' err Hyes Hexit' Hrc').
    reflexivity.
Qed.

Lemma failure_discards_stdout_witness :
  ∃ m : gmap string pyval,
    (run_script (post (script_is (PyStr "dein_script.py"))) (boot boom_os)).1
    = Return {| body := JsonBody (PyDict m); status := 400 |}
    ∧ dom m = {["error"]}
    ∧ m !! "error" = Some (PyStr "boom").
Proof.
  apply (failure_discards_stdout (script_is (PyStr "dein_script.py")) (boot boom_os)
           1 "partial output" "boom");
    [vm_compute; reflexivity | vm_compute; reflexivity | lia].
Defined.

(** Claim C7. A request that passes the check makes exactly one call of
    [subprocess.run], for the argument vector [python3 <script>] with
    output capture in text mode, and that call is the only entry added to
    the log of spawned processes; the handler waits for the child, so it
    answers only if the child has exited and never answers if the child
    never exits. A request that fails the check adds nothing to the
    log. *)
Theorem run_script_spawns_once (d : gmap string pyval) (w : world) :
  (py_in (dict_get d "script") erlaubte_skripte = true →
   spawned (run_script (post d) w).2
   = (spawned w ++ [{| args := [PyStr "python3"; dict_get d "script"];
                       capture_output := true; text := true;
                       check := true |}])%list
   ∧ (∀ resp : Response,
        (run_script (post d) w).1 = Return resp →
        ∃ rc out err,
          os w (spawned w) (python3_call (dict_get d "script")) = Exited rc out err)
   ∧ (os w (spawned w) (python3_call (dict_get d "script")) = NeverExits →
      (run_script (post d) w).1 = Blocked))
  ∧ (py_in (dict_get d "script") erlaubte_skripte = false →
     spawned (run_script (post d) w).2 = spawned w).
Proof.
  split.
  - intros Hyes. pose proof Hyes as Heq. apply py_in_erlaubt in Heq.
    rewrite Heq, (run_script_accept d w Hyes). simpl. split; [reflexivity|]. split.
    + intros resp Hresp.
      destruct (os w (spawned w) (python3_call dein_script)) as [rc out err| |errno|];
        try discriminate.
      exists rc, out, err. reflexivity.
    + intros ->. reflexivity.
  - intros Hno. rewrite (run_script_reject d w Hno). reflexivity.
Qed.

Lemma run_script_spawns_once_witness :
  (spawned (run_script (post (script_is (PyStr "dein_script.py")))
                       (boot hung_os)).2
   = [python3_call (PyStr "dein_script.py")]
   ∧ (run_script (post (script_is (PyStr "dein_script.py"))) (boot hung_os)).1
     = Blocked)
  ∧ spawned (run_script (post (script_is (PyStr "../dein_script.py")))
                        (boot hung_os)).2 = [].
Proof.
  split; [split|].
  - apply (proj1 (run_script_spawns_once (script_is (PyStr "dein_script.py"))
                    (boot hung_os))).
    vm_compute. reflexivity.
  - apply (proj1 (run_script_spawns_once (script_is (PyStr "dein_script.py"))
                    (boot hung_os)));
      vm_compute; reflexivity.
  - apply (proj2 (run_script_spawns_once (script_is (PyStr "../dein_script.py"))
                    (boot hung_os))).
    vm_compute. reflexivity.
Defined.

(** Claim C8. A GET of [/] is answered with status 200 and exactly the
    bytes of [index.html] under the static root; when that file is absent
    the view raises NotFound, status 404. *)
Theorem index_serves_page (w : world) :
  (∀ data : list Byte.byte,
     files w !! "static/index.html" = Some data →
     index w = (Return {| body := FileBody data; status := 200 |}, w))
  ∧ (files w !! "static/index.html" = None →
     index w = (Raise (HTTPException 404), w)).
Proof.
  unfold index, send_from_directory.
  change ("static" +:+ "/" +:+ "index.html") with "static/index.html".
  split; [intros data Hfile | intros Hfile]; rewrite Hfile; reflexivity.
Qed.

Lemma index_serves_page_witness :
  index (boot_with_page hello_os)
  = (Return {| body := FileBody index_html; status := 200 |}, boot_with_page hello_os)
  ∧ index (boot hello_os) = (Raise (HTTPException 404), boot hello_os).
Proof.
  split.
  - apply (proj1 (index_serves_page (boot_with_page hello_os))).
    vm_compute. reflexivity.
  - apply (proj2 (index_serves_page (boot hello_os))).
    vm_compute. reflexivity.
Defined.

(** ** Further properties of [run_script] *)

(** What a request does to the world: an accepted one logs the one call,
    every other one leaves the world as it was. *)
Lemma run_script_world (request : Request) (w : world) :
  (run_script request w).2
  = if accepts request then log_call (python3_call dein_script) w else w.
Proof.
  destruct request as [e|v]; [reflexivity|].
  destruct v; try reflexivity.
  change (Json (PyDict d)) with (post d). unfold accepts, post.
  destruct (py_in (dict_get d "script") erlaubte_skripte) eqn:Hin.
  - change (Json (PyDict d)) with (post d). rewrite (run_script_accept d w Hin).
    reflexivity.
  - change (Json (PyDict d)) with (post d). rewrite (run_script_reject d w Hin).
    reflexivity.
Qed.

(** Extra X1. Only [CalledProcessError] is caught. When the interpreter
    cannot be executed, or the child writes bytes that are not text, the
    exception of [subprocess.run] leaves the handler as it is: no JSON
    error response is made, and the call stays in the log. *)
Theorem spawn_errors_escape (d : gmap string pyval) (w : world) :
  py_in (dict_get d "script") erlaubte_skripte = true →
  (∀ errno : Z,
     os w (spawned w) (python3_call dein_script) = CannotExecute errno →
     run_script (post d) w
     = (Raise (OSError errno), log_call (python3_call dein_script) w))
  ∧ (os w (spawned w) (python3_call dein_script) = NotText →
     run_script (post d) w
     = (Raise UnicodeDecodeError, log_call (python3_call dein_script) w)).
Proof.
  intros Hyes. rewrite (run_script_accept d w Hyes).
  split; [intros errno Hfate | intros Hfate]; rewrite Hfate; reflexivity.
Qed.

Lemma spawn_errors_escape_witness :
  run_script (post (script_is dein_script)) (boot no_python_os)
  = (Raise (OSError 2), log_call (python3_call dein_script) (boot no_python_os))
  ∧ run_script (post (script_is dein_script)) (boot binary_os)
    = (Raise UnicodeDecodeError, log_call (python3_call dein_script) (boot binary_os)).
Proof.
  split.
  - apply (proj1 (spawn_errors_escape (script_is dein_script) (boot no_python_os)
                    ltac:(vm_compute; reflexivity))).
    vm_compute. reflexivity.
  - apply (proj2 (spawn_errors_escape (script_is dein_script) (boot binary_os)
                    ltac:(vm_compute; reflexivity))).
    vm_compute. reflexivity.
Defined.

(** Extra X2. Every response [run_script] returns, for any request in any
    world, has one of three shapes: status 403 with the fixed message and
    the world untouched; status 200 with the single key "output" after one
    logged call; status 400 with the single key "error" after one logged
    call. No other status and no other body is ever returned. *)
Theorem response_shapes (request : Request) (w : world) (resp : Response) :
  (run_script request w).1 = Return resp →
  (resp = {| body := error_body "Script nicht erlaubt"; status := 403 |}
   ∧ (run_script request w).2 = w)
  ∨ ((∃ out : string, resp = {| body := output_body out; status := 200 |})
     ∧ (run_script request w).2 = log_call (python3_call dein_script) w)
  ∨ ((∃ err : string, resp = {| body := error_body err; status := 400 |})
     ∧ (run_script request w).2 = log_call (python3_call dein_script) w).
Proof.
  destruct request as [e|v]; [discriminate|].
  destruct v; try discriminate.
  change (Json (PyDict d)) with (post d).
  destruct (py_in (dict_get d "script") erlaubte_skripte) eqn:Hin.
  - rewrite (run_script_accept d w Hin). simpl.
    destruct (os w (spawned w) (python3_call dein_script)) as [rc out err| |errno|];
      try discriminate.
    destruct (rc =? 0)%Z; intros [= <-]; right; [left | right]; eauto.
  - rewrite (run_script_reject d w Hin). simpl. intros [= <-]. left. split; reflexivity.
Qed.

Lemma response_shapes_witness :
  ({| body := error_body "boom"; status := 400 |}
   = {| body := error_body "Script nicht erlaubt"; status := 403 |}
   ∧ (run_script (post (script_is dein_script)) (boot boom_os)).2 = boot boom_os)
  ∨ ((∃ out : string,
        {| body := error_body "boom"; status := 400 |}
        = {| body := output_body out; status := 200 |})
     ∧ (run_script (post (script_is dein_script)) (boot boom_os)).2
       = log_call (python3_call dein_script) (boot boom_os))
  ∨ ((∃ err : string,
        {| body := error_body "boom"; status := 400 |}
        = {| body := error_body err; status := 400 |})
     ∧ (run_script (post (script_is dein_script)) (boot boom_os)).2
       = log_call (python3_call dein_script) (boot boom_os)).
Proof.
  apply (response_shapes (post (script_is dein_script)) (boot boom_os)).
  vm_compute. reflexivity.
Defined.


(** Extra X4. [script] is the only field of the body the handler reads:
    two object bodies with the same [script] value get the same outcome
    and leave the same world, on the accepting path as on the rejecting
    one. In particular a body without the field and a body that binds it
    to [null] are treated alike. *)
Theorem only_script_is_read (d1 d2 : gmap string pyval) (w : world) :
  dict_get d1 "script" = dict_get d2 "script" →
  run_script (post d1) w = run_script (post d2) w.
Proof.
  intros Hsame.
  destruct (py_in (dict_get d1 "script") erlaubte_skripte) eqn:Hin1;
    pose proof Hin1 as Hin2; rewrite Hsame in Hin2.
  - rewrite (run_script_accept d1 w Hin1), (run_script_accept d2 w Hin2). reflexivity.
  - rewrite (run_script_reject d1 w Hin1), (run_script_reject d2 w Hin2). reflexivity.
Qed.

Lemma only_script_is_read_witness :
  run_script (post (script_is dein_script)) (boot hello_os)
  = run_script (post (<["args" := PyList [PyStr "--force"]]> (script_is dein_script)))
               (boot hello_os)
  ∧ run_script (post ∅) (boot hello_os)
    = run_script (post (script_is PyNone)) (boot hello_os).
Proof.
  split; apply only_script_is_read; vm_compute; reflexivity.
Defined.

(** Extra X5. Nothing is cached. A second accepted request, made in the
    world the first one left, starts the script again, and its response is
    made from what that second child does, whatever the first one did. *)
Theorem repeated_request_runs_again (d : gmap string pyval) (w : world) :
  py_in (dict_get d "script") erlaubte_skripte = true →
  spawned (run_script (post d) (run_script (post d) w).2).2
  = (spawned w ++ [python3_call dein_script; python3_call dein_script])%list
  ∧ (∀ out err : string,
       os w (spawned w ++ [python3_call dein_script])%list (python3_call dein_script)
       = Exited 0 out err →
       (run_script (post d) (run_script (post d) w).2).1
       = Return {| body := output_body out; status := 200 |})
  ∧ (∀ (rc : Z) (out err : string),
       os w (spawned w ++ [python3_call dein_script])%list (python3_call dein_script)
       = Exited rc out err →
       rc ≠ 0 →
       (run_script (post d) (run_script (post d) w).2).1
       = Return {| body := error_body err; status := 400 |}).
Proof.
  intros Hyes. rewrite (run_script_accept d w Hyes). cbn [snd].
  rewrite (run_script_accept d _ Hyes). cbn [fst snd log_call os spawned].
  split; [|split].
  - rewrite <- app_assoc. reflexivity.
  - intros out err ->. reflexivity.
  - intros rc out err -> Hrc.
    destruct (Z.eqb_spec rc 0) as [->|_]; [destruct Hrc|]; reflexivity.
Qed.

Lemma repeated_request_runs_again_witness :
  (run_script (post (script_is dein_script)) (boot flaky_os)).1
  = Return {| body := output_body "first run"; status := 200 |}
  ∧ (run_script (post (script_is dein_script))
       (run_script (post (script_is dein_script)) (boot flaky_os)).2).1
    = Return {| body := error_body "second run failed"; status := 400 |}.
Proof.
  split.
  - vm_compute. reflexivity.
  - apply (proj2 (proj2 (repeated_request_runs_again (script_is dein_script)
                           (boot flaky_os) ltac:(vm_compute; reflexivity)))
             3 "quiet" "second run failed");
      [vm_compute; reflexivity | lia].
Defined.

(** Extra X6. Whatever requests arrive, the only command the handler ever
    runs is [python3 dein_script.py]: after any sequence of requests the
    log is the old log followed by one such call per accepted request, in
    text mode with captured output, and by nothing else. *)
Theorem only_allowed_command_runs (requests : list Request) (w : world) :
  spawned (serve_all requests w)
  = (spawned w
     ++ replicate (length (List.filter accepts requests))
                  (python3_call dein_script))%list.
Proof.
  revert w. induction requests as [|request requests IH]; intros w.
  - simpl. rewrite app_nil_r. reflexivity.
  - unfold serve_all. simpl. fold (serve_all requests (run_script request w).2).
    rewrite IH, run_script_world.
    destruct (accepts request); simpl.
    + rewrite <- app_assoc. reflexivity.
    + reflexivity.
Qed.

(** Extra X7. With an object body the handler raises only when an
    accepted script could not be executed or wrote bytes that are not
    text: a rejected request never raises, and the [CalledProcessError] of
    a failing script never leaves the handler. *)
Theorem object_body_exceptions (d : gmap string pyval) (w : world) (e : exn) :
  (run_script (post d) w).1 = Raise e →
  dict_get d "script" = dein_script
  ∧ ((∃ errno : Z,
        e = OSError errno
        ∧ os w (spawned w) (python3_call dein_script) = CannotExecute errno)
     ∨ (e = UnicodeDecodeError
        ∧ os w (spawned w) (python3_call dein_script) = NotText)).
Proof.
  destruct (py_in (dict_get d "script") erlaubte_skripte) eqn:Hin.
  - rewrite (run_script_accept d w Hin). simpl. intros Hraise.
    split; [apply py_in_erlaubt, Hin|].
    destruct (os w (spawned w) (python3_call dein_script)) as [rc out err| |errno|];
      try discriminate.
    + destruct (rc =? 0)%Z; discriminate.
    + injection Hraise as <-. left. eauto.
    + injection Hraise as <-. right. split; reflexivity.
  - rewrite (run_script_reject d w Hin). discriminate.
Qed.

Lemma object_body_exceptions_witness :
  dict_get (script_is dein_script) "script" = dein_script
  ∧ ((∃ errno : Z,
        OSError 2 = OSError errno
        ∧ os (boot no_python_os) (spawned (boot no_python_os))
             (python3_call dein_script) = CannotExecute errno)
     ∨ (OSError 2 = UnicodeDecodeError
        ∧ os (boot no_python_os) (spawned (boot no_python_os))
             (python3_call dein_script) = NotText)).
Proof.
  apply (object_body_exceptions (script_is dein_script) (boot no_python_os) (OSError 2)).
  vm_compute. reflexivity.
Defined.
